(** * puppetdb-python: the v3 metrics and v4 events endpoint wrappers

    A shallow embedding of [puppetdb/v3/metrics.py] and
    [puppetdb/v4/events.py].  Every endpoint function binds its arguments
    (falling back on the defaults that were evaluated when the [def]
    statement ran) and returns whatever the shared request helper
    [utils._make_api_request] returns.

    Python objects that the claims depend on are modelled with their
    identity: the [list()] used as default for [cert] is one heap object
    per function, created when the module is imported. *)

From Stdlib Require Import ZArith Ascii String List.
From stdpp Require Import base option gmap strings list fin_maps pretty.

Local Open Scope string_scope.
Local Open Scope Z_scope.

(** ** Python values *)

(** Identity of a mutable heap object. *)
Definition loc := positive.

(** The values the wrappers handle.  A list is a reference: two values
    [PyList l] with the same [l] are the same object. *)
Inductive pyval : Type :=
| PyNone
| PyBool (b : bool)
| PyInt (n : Z)
| PyStr (s : string)
| PyList (l : loc).

#[global] Instance pyval_eq_dec : EqDecision pyval.
Proof. solve_decision. Defined.

(** ** The world a call runs in *)

Inductive http_method : Type := GET | POST | PUT | DELETE.

(** One request put on the wire. *)
Record http_request : Type := HttpRequest {
  rq_method : http_method;
  rq_url : string;
  rq_params : gmap string pyval;
  rq_verify : pyval;
  rq_cert : pyval
}.

(** What comes back: no connection at all, or a status line and a body. *)
Inductive http_reply : Type :=
| ConnectFailed
| Replied (status : Z) (body : string).

(** The heap of list objects and the journal of requests sent so far. *)
Record world : Type := World {
  heap : gmap loc (list pyval);
  wire : list http_request
}.

Definition set_heap (h : gmap loc (list pyval)) (w : world) : world :=
  {| heap := h; wire := wire w |}.

Definition set_wire (t : list http_request) (w : world) : world :=
  {| heap := heap w; wire := t |}.

(** ** Computations: state passing with exceptions *)

Inductive exn : Type :=
| TypeError
| FormatError
| TransportError
| ApiError (status : Z) (body : string)
| DecodeError.

#[global] Instance exn_eq_dec : EqDecision exn.
Proof. solve_decision. Defined.

Inductive outcome (A : Type) : Type :=
| Returned (a : A)
| Raised (e : exn).
Arguments Returned {A} a.
Arguments Raised {A} e.

Definition py (A : Type) : Type := world -> outcome A * world.

Definition ret {A} (a : A) : py A := fun w => (Returned a, w).

Definition raise {A} (e : exn) : py A := fun w => (Raised e, w).

Definition bind {A B} (k : A -> py B) (c : py A) : py B :=
  fun w =>
    match c w with
    | (Returned a, w') => k a w'
    | (Raised e, w') => (Raised e, w')
    end.

#[global] Instance py_ret : MRet py := @ret.
#[global] Instance py_bind : MBind py := @bind.

(** [list()]: a new, empty list object at an address not in use. *)
Definition new_list : py pyval :=
  fun w =>
    let l := fresh (dom (heap w)) in
    (Returned (PyList l), set_heap (<[l := []]> (heap w)) w).

(** [xs.append(x)] on a list object; anything else has no [append]. *)
Definition list_append (v x : pyval) : py unit :=
  fun w =>
    match v with
    | PyList l =>
        match heap w !! l with
        | Some xs => (Returned tt, set_heap (<[l := (xs ++ [x])%list]> (heap w)) w)
        | None => (Raised TypeError, w)
        end
    | _ => (Raised TypeError, w)
    end.

(** The elements of a list object, [None] for any other value. *)
Definition list_items (w : world) (v : pyval) : option (list pyval) :=
  match v with
  | PyList l => heap w !! l
  | _ => None
  end.

(** A keyword or positional argument that the caller may leave out. *)
Definition arg (given : option pyval) (dflt : pyval) : pyval :=
  default dflt given.

(** ** [str.format] *)

(** The fragment of the format mini-language that the sources use:
    literal text, the escapes [{{] and [}}], and positional fields [{N}].
    [None] stands for a call that raises (a lone brace, an index past the
    arguments) or for a template outside this fragment. *)

Definition is_digit (c : ascii) : bool :=
  (48 <=? nat_of_ascii c)%nat && (nat_of_ascii c <=? 57)%nat.

Definition digit_val (c : ascii) : nat := (nat_of_ascii c - 48)%nat.

(** Reads the index of a field up to its closing brace. *)
Fixpoint read_index (acc : nat) (seen : bool) (s : string) : option (nat * string) :=
  match s with
  | EmptyString => None
  | String c rest =>
      if Ascii.eqb c "}"%char then (if seen then Some (acc, rest) else None)
      else if is_digit c then read_index (10 * acc + digit_val c)%nat true rest
      else None
  end.

(** The formatter proper; [fuel] bounds the number of characters and
    fields still to be read. *)
Fixpoint format_go (fuel : nat) (tmpl : string) (args : list string) : option string :=
  match fuel with
  | O => None
  | S fuel' =>
      match tmpl with
      | EmptyString => Some EmptyString
      | String c rest =>
          if Ascii.eqb c "{"%char then
            match rest with
            | String "{"%char rest' =>
                String "{"%char <$> format_go fuel' rest' args
            | _ =>
                match read_index 0 false rest with
                | Some (n, rest') =>
                    match args !! n with
                    | Some a => String.append a <$> format_go fuel' rest' args
                    | None => None
                    end
                | None => None
                end
            end
          else if Ascii.eqb c "}"%char then
            match rest with
            | String "}"%char rest' =>
                String "}"%char <$> format_go fuel' rest' args
            | _ => None
            end
          else String c <$> format_go fuel' rest args
      end
  end.

Definition str_format (tmpl : string) (args : list string) : option string :=
  format_go (S (String.length tmpl)) tmpl args.

(** ** Module state *)

(** What evaluating the body of [puppetdb/v3/metrics.py] leaves behind:
    the module constant and, for each [def], the default values of its
    parameters.  Defaults are evaluated once, when the [def] statement
    runs, and stored with the function. *)
Record metrics_module : Type := MetricsModule {
  metrics_API_VERSION : pyval;
  gmn_api_url : pyval;
  gmn_verify : pyval;
  gmn_cert : pyval;
  gmbn_api_url : pyval;
  gmbn_metric_name : pyval;
  gmbn_verify : pyval;
  gmbn_cert : pyval
}.

(** Same for [puppetdb/v4/events.py]. *)
Record events_module : Type := EventsModule {
  events_API_VERSION : pyval;
  ge_api_url : pyval;
  ge_query : pyval;
  ge_verify : pyval;
  ge_cert : pyval
}.

(** [import puppetdb.v3.metrics]:
      API_VERSION = 'v3'
      def get_metric_names(api_url=None, verify=False, cert=list()): ...
      def get_metrics_by_name(api_url=None, metric_name=None, verify=False, cert=list()): ... *)
Definition import_metrics : py metrics_module :=
  c1 ← new_list;
  c2 ← new_list;
  mret {| metrics_API_VERSION := PyStr "v3";
          gmn_api_url := PyNone;
          gmn_verify := PyBool false;
          gmn_cert := c1;
          gmbn_api_url := PyNone;
          gmbn_metric_name := PyNone;
          gmbn_verify := PyBool false;
          gmbn_cert := c2 |}.

(** [import puppetdb.v4.events]:
      API_VERSION = 'v3'
      def get_events(api_url=None, query='', verify=False, cert=list()): ... *)
Definition import_events : py events_module :=
  c ← new_list;
  mret {| events_API_VERSION := PyStr "v3";
          ge_api_url := PyNone;
          ge_query := PyStr EmptyString;
          ge_verify := PyBool false;
          ge_cert := c |}.

(** Rebinding the module constant ([events.API_VERSION = v]). *)
Definition set_events_API_VERSION (v : pyval) (m : events_module) : events_module :=
  {| events_API_VERSION := v;
     ge_api_url := ge_api_url m;
     ge_query := ge_query m;
     ge_verify := ge_verify m;
     ge_cert := ge_cert m |}.

(** ** The endpoint functions *)

(** The signature of the shared request helper,
    [utils._make_api_request(api_url, path, verify, cert, params=...)].
    The last argument is [None] when the caller does not pass [params]. *)
Definition dispatcher (R : Type) : Type :=
  pyval -> string -> pyval -> pyval -> option (gmap string pyval) -> py R.

Section Endpoints.

(** The string form of a list object depends on the rendering of its
    elements by the interpreter; it is kept abstract. *)
Variable list_str : gmap loc (list pyval) -> loc -> string.

(** [str(v)], which is what ['{0}'.format(v)] inserts. *)
Definition py_str (h : gmap loc (list pyval)) (v : pyval) : string :=
  match v with
  | PyNone => "None"
  | PyBool true => "True"
  | PyBool false => "False"
  | PyInt n => pretty n
  | PyStr s => s
  | PyList l => list_str h l
  end.

(** [tmpl.format( *args )] *)
Definition py_format (tmpl : string) (args : list pyval) : py string :=
  fun w =>
    match str_format tmpl (py_str (heap w) <$> args) with
    | Some s => (Returned s, w)
    | None => (Raised FormatError, w)
    end.

(** The request helper that the modules import from [puppetdb.utils]. *)
Variable R : Type.
Variable _make_api_request : dispatcher R.

(** metrics.py, [get_metric_names] *)
Definition get_metric_names (m : metrics_module)
    (api_url verify cert : option pyval) : py R :=
  let api_url := arg api_url (gmn_api_url m) in
  let verify := arg verify (gmn_verify m) in
  let cert := arg cert (gmn_cert m) in
  _make_api_request api_url "/metrics/mbeans" verify cert None.

(** metrics.py, [get_metrics_by_name] *)
Definition get_metrics_by_name (m : metrics_module)
    (api_url metric_name verify cert : option pyval) : py R :=
  let api_url := arg api_url (gmbn_api_url m) in
  let metric_name := arg metric_name (gmbn_metric_name m) in
  let verify := arg verify (gmbn_verify m) in
  let cert := arg cert (gmbn_cert m) in
  path ← py_format "/metrics/mbean/{0}" [metric_name];
  _make_api_request api_url path verify cert None.

(** events.py, [get_events] *)
Definition get_events (m : events_module)
    (api_url query verify cert : option pyval) : py R :=
  let api_url := arg api_url (ge_api_url m) in
  let query := arg query (ge_query m) in
  let verify := arg verify (ge_verify m) in
  let cert := arg cert (ge_cert m) in
  _make_api_request api_url "/events" verify cert (Some {[ "query" := query ]}).

End Endpoints.

(** A call of an endpoint function, still waiting for the helper it is
    linked with. *)
Definition endpoint_call : Type := forall R : Type, dispatcher R -> py R.

(** In world [w] the call does one thing: it hands these five arguments
    to the helper and returns the helper's outcome, whatever the helper
    is. *)
Definition forwards (f : endpoint_call) (w : world)
    (api_url : pyval) (path : string) (verify cert : pyval)
    (params : option (gmap string pyval)) : Prop :=
  forall (R : Type) (d : dispatcher R),
    f R d w = d api_url path verify cert params w.

(** A helper that only reports the arguments it was called with. *)
Definition echo : dispatcher (pyval * string * pyval * pyval * option (gmap string pyval)) :=
  fun api_url path verify cert params w =>
    (Returned (api_url, path, verify, cert, params), w).

(** ** JSON values *)

(** A decoded response.  Objects keep the members in the order of the
    text; a lookup takes the last member of that name, as a Python dict
    built from the text does. *)
#[warnings="-register-all"]
Inductive json : Type :=
| JNull
| JBool (b : bool)
| JNum (n : Z)
| JStr (s : string)
| JArr (items : list json)
| JObj (members : list (string * json)).

Definition json_len (j : json) : option nat :=
  match j with
  | JArr items => Some (length items)
  | _ => None
  end.

Definition json_item (i : nat) (j : json) : option json :=
  match j with
  | JArr items => items !! i
  | _ => None
  end.

Fixpoint assoc_last (k : string) (kvs : list (string * json)) : option json :=
  match kvs with
  | [] => None
  | (k', v) :: rest =>
      match assoc_last k rest with
      | Some v' => Some v'
      | None => if String.eqb k k' then Some v else None
      end
  end.

Definition json_field (k : string) (j : json) : option json :=
  match j with
  | JObj members => assoc_last k members
  | _ => None
  end.

(** ** A JSON reader *)

(** A reader for JSON text with integer numbers and the two-character
    escapes; a fraction, an exponent or a [\u] escape is rejected.  It
    serves to run the documented example through the decoding step. *)

Definition dquote : ascii := "034"%char.
Definition backslash : ascii := "092"%char.

Definition is_ws (c : ascii) : bool :=
  Ascii.eqb c " "%char || Ascii.eqb c "009"%char
  || Ascii.eqb c "010"%char || Ascii.eqb c "013"%char.

Fixpoint skip_ws (s : string) : string :=
  match s with
  | String c rest => if is_ws c then skip_ws rest else s
  | EmptyString => s
  end.

Definition unescape (c : ascii) : option ascii :=
  if Ascii.eqb c dquote then Some dquote
  else if Ascii.eqb c backslash then Some backslash
  else if Ascii.eqb c "/"%char then Some "/"%char
  else if Ascii.eqb c "b"%char then Some "008"%char
  else if Ascii.eqb c "f"%char then Some "012"%char
  else if Ascii.eqb c "n"%char then Some "010"%char
  else if Ascii.eqb c "r"%char then Some "013"%char
  else if Ascii.eqb c "t"%char then Some "009"%char
  else None.

(** Reads a string after its opening quote, up to the closing one. *)
Fixpoint read_string (s : string) : option (string * string) :=
  match s with
  | EmptyString => None
  | String c rest =>
      if Ascii.eqb c dquote then Some (EmptyString, rest)
      else if Ascii.eqb c backslash then
        match rest with
        | String e rest' =>
            match unescape e, read_string rest' with
            | Some c', Some (str, tail) => Some (String c' str, tail)
            | _, _ => None
            end
        | EmptyString => None
        end
      else if (nat_of_ascii c <? 32)%nat then None
      else
        match read_string rest with
        | Some (str, tail) => Some (String c str, tail)
        | None => None
        end
  end.

Fixpoint read_digits (acc : Z) (s : string) : Z * string :=
  match s with
  | String c rest =>
      if is_digit c then read_digits (10 * acc + Z.of_nat (digit_val c)) rest
      else (acc, s)
  | EmptyString => (acc, s)
  end.

(** An integer: [0] or a digit sequence without leading zero; nothing
    of a fraction or exponent may follow. *)
Definition read_nat (s : string) : option (Z * string) :=
  match s with
  | String c rest =>
      if is_digit c then
        let '(n, tail) :=
          if Ascii.eqb c "0"%char then (0, rest)
          else read_digits (Z.of_nat (digit_val c)) rest in
        match tail with
        | String d _ =>
            if is_digit d || Ascii.eqb d "."%char
               || Ascii.eqb d "e"%char || Ascii.eqb d "E"%char
            then None else Some (n, tail)
        | EmptyString => Some (n, tail)
        end
      else None
  | EmptyString => None
  end.

Definition read_literal (lit : string) (v : json) (s : string) : option (json * string) :=
  if String.prefix lit s
  then Some (v, String.substring (String.length lit) (String.length s - String.length lit) s)
  else None.

(** Values, array elements and object members; [fuel] bounds the number
    of calls. *)
Fixpoint read_value (fuel : nat) (s : string) : option (json * string) :=
  match fuel with
  | O => None
  | S fuel' =>
      match skip_ws s with
      | EmptyString => None
      | String c rest =>
          if Ascii.eqb c dquote then
            match read_string rest with
            | Some (str, tail) => Some (JStr str, tail)
            | None => None
            end
          else if Ascii.eqb c "["%char then
            match skip_ws rest with
            | String "]"%char tail => Some (JArr [], tail)
            | _ =>
                match read_items fuel' rest with
                | Some (items, tail) => Some (JArr items, tail)
                | None => None
                end
            end
          else if Ascii.eqb c "{"%char then
            match skip_ws rest with
            | String "}"%char tail => Some (JObj [], tail)
            | _ =>
                match read_members fuel' rest with
                | Some (members, tail) => Some (JObj members, tail)
                | None => None
                end
            end
          else if Ascii.eqb c "-"%char then
            match read_nat rest with
            | Some (n, tail) => Some (JNum (- n), tail)
            | None => None
            end
          else if is_digit c then
            match read_nat (String c rest) with
            | Some (n, tail) => Some (JNum n, tail)
            | None => None
            end
          else if Ascii.eqb c "t"%char then read_literal "true" (JBool true) (String c rest)
          else if Ascii.eqb c "f"%char then read_literal "false" (JBool false) (String c rest)
          else if Ascii.eqb c "n"%char then read_literal "null" JNull (String c rest)
          else None
      end
  end
with read_items (fuel : nat) (s : string) : option (list json * string) :=
  match fuel with
  | O => None
  | S fuel' =>
      match read_value fuel' s with
      | Some (v, tail) =>
          match skip_ws tail with
          | String "]"%char tail' => Some ([v], tail')
          | String ","%char tail' =>
              match read_items fuel' tail' with
              | Some (vs, tail'') => Some (v :: vs, tail'')
              | None => None
              end
          | _ => None
          end
      | None => None
      end
  end
with read_members (fuel : nat) (s : string) : option (list (string * json) * string) :=
  match fuel with
  | O => None
  | S fuel' =>
      match skip_ws s with
      | String c rest =>
          if Ascii.eqb c dquote then
            match read_string rest with
            | Some (k, tail) =>
                match skip_ws tail with
                | String ":"%char tail' =>
                    match read_value fuel' tail' with
                    | Some (v, tail'') =>
                        match skip_ws tail'' with
                        | String "}"%char tail3 => Some ([(k, v)], tail3)
                        | String ","%char tail3 =>
                            match read_members fuel' tail3 with
                            | Some (kvs, tail4) => Some ((k, v) :: kvs, tail4)
                            | None => None
                            end
                        | _ => None
                        end
                    | None => None
                    end
                | _ => None
                end
            | None => None
            end
          else None
      | EmptyString => None
      end
  end.

(** The whole text must be one value, white space around it apart. *)
Definition read_json (s : string) : option json :=
  match read_value (2 * String.length s + 2) s with
  | Some (v, tail) =>
      match skip_ws tail with
      | EmptyString => Some v
      | _ => None
      end
  | None => None
  end.

(** Source text is written with a back quote where the text has a double
    quote, and as a list of lines. *)
Fixpoint requote (s : string) : string :=
  match s with
  | String c rest => String (if Ascii.eqb c "`"%char then dquote else c) (requote rest)
  | EmptyString => EmptyString
  end.

Definition newline : string := String "010"%char EmptyString.

Definition text_of_lines (ls : list string) : string :=
  String.concat newline (requote <$> ls).

(** The response shown in the docstring of [events.py]. *)
Definition documented_events_text : string :=
  text_of_lines [
    "[";
    "  {";
    "    `certname`: `foo.localdomain`,";
    "    `old-value`: `absent`,";
    "    `property`: `ensure`,";
    "    `timestamp`: `2012-10-30T19:01:05.000Z`,";
    "    `resource-type`: `File`,";
    "    `resource-title`: `/tmp/reportingfoo`,";
    "    `new-value`: `file`,";
    "    `message`: `defined content as '{md5}49f68a5c8493ec2c0bf489821c21fc3b'`,";
    "    `report`: `38ff2aef3ffb7800fe85b322280ade2b867c8d27`,";
    "    `status`: `success`,";
    "    `file`: `/home/user/path/to/manifest.pp`,";
    "    `line`: 6,";
    "    `containment-path`: [ `Stage[main]`, `Foo`, `File[/tmp/reportingfoo]` ],";
    "    `containing-class`: `Foo`,";
    "    `run-start-time`: `2012-10-30T19:00:00.000Z`,";
    "    `run-end-time`: `2012-10-30T19:05:00.000Z`,";
    "    `report-receive-time`: `2012-10-30T19:06:00.000Z`";
    "  },";
    "  {";
    "    `certname`: `foo.localdomain`,";
    "    `old-value`: `absent`,";
    "    `property`: `message`,";
    "    `timestamp`: `2012-10-30T19:01:05.000Z`,";
    "    `resource-type`: `Notify`,";
    "    `resource-title`: `notify, yo`,";
    "    `new-value`: `notify, yo`,";
    "    `message`: `defined 'message' as 'notify, yo'`,";
    "    `report`: `38ff2aef3ffb7800fe85b322280ade2b867c8d27`,";
    "    `status`: `success`,";
    "    `file`: `/home/user/path/to/manifest.pp`,";
    "    `line`: 10,";
    "    `containment-path`: [ `Stage[main]`, ``, `Node[default]`, `Notify[notify, yo]` ],";
    "    `containing-class`: null,";
    "    `run-start-time`: `2012-10-30T19:00:00.000Z`,";
    "    `run-end-time`: `2012-10-30T19:05:00.000Z`,";
    "    `report-receive-time`: `2012-10-30T19:06:00.000Z`";
    "  }";
    "]"
  ].

(** Its two events, decoded. *)
Definition documented_event_1 : json :=
  JObj [
    ("certname", JStr "foo.localdomain");
    ("old-value", JStr "absent");
    ("property", JStr "ensure");
    ("timestamp", JStr "2012-10-30T19:01:05.000Z");
    ("resource-type", JStr "File");
    ("resource-title", JStr "/tmp/reportingfoo");
    ("new-value", JStr "file");
    ("message", JStr "defined content as '{md5}49f68a5c8493ec2c0bf489821c21fc3b'");
    ("report", JStr "38ff2aef3ffb7800fe85b322280ade2b867c8d27");
    ("status", JStr "success");
    ("file", JStr "/home/user/path/to/manifest.pp");
    ("line", JNum 6);
    ("containment-path", JArr [JStr "Stage[main]"; JStr "Foo"; JStr "File[/tmp/reportingfoo]"]);
    ("containing-class", JStr "Foo");
    ("run-start-time", JStr "2012-10-30T19:00:00.000Z");
    ("run-end-time", JStr "2012-10-30T19:05:00.000Z");
    ("report-receive-time", JStr "2012-10-30T19:06:00.000Z") ].

Definition documented_event_2 : json :=
  JObj [
    ("certname", JStr "foo.localdomain");
    ("old-value", JStr "absent");
    ("property", JStr "message");
    ("timestamp", JStr "2012-10-30T19:01:05.000Z");
    ("resource-type", JStr "Notify");
    ("resource-title", JStr "notify, yo");
    ("new-value", JStr "notify, yo");
    ("message", JStr "defined 'message' as 'notify, yo'");
    ("report", JStr "38ff2aef3ffb7800fe85b322280ade2b867c8d27");
    ("status", JStr "success");
    ("file", JStr "/home/user/path/to/manifest.pp");
    ("line", JNum 10);
    ("containment-path", JArr [JStr "Stage[main]"; JStr EmptyString; JStr "Node[default]"; JStr "Notify[notify, yo]"]);
    ("containing-class", JNull);
    ("run-start-time", JStr "2012-10-30T19:00:00.000Z");
    ("run-end-time", JStr "2012-10-30T19:05:00.000Z");
    ("report-receive-time", JStr "2012-10-30T19:06:00.000Z") ].

Definition documented_events : json :=
  JArr [documented_event_1; documented_event_2].

(** The query of the example, [["=", "status", "failure"]] as JSON text. *)
Definition failure_query : string := requote "[`=`, `status`, `failure`]".

(** ** The request helper *)

Module utils.
Section Dispatcher.

(** The remote service: its reply to a request, given the requests it
    has seen before. *)
Variable server : list http_request -> http_request -> http_reply.

(** The decoding of a response body, [None] when the body is not JSON. *)
Variable json_decode : string -> option json.

(** [base_url + path] on Python values: defined on strings only. *)
Definition str_add (v : pyval) (s : string) : py string :=
  match v with
  | PyStr b => mret (b +:+ s)
  | _ => raise TypeError
  end.

(** One GET request on the wire, and the reply to it. *)
Definition http_get (url : string) (params : gmap string pyval)
    (verify cert : pyval) : py http_reply :=
  fun w =>
    let rq := {| rq_method := GET; rq_url := url; rq_params := params;
                 rq_verify := verify; rq_cert := cert |} in
    (Returned (server (wire w) rq), set_wire (wire w ++ [rq])%list w).

Definition is_success (status : Z) : bool :=
  (200 <=? status) && (status <? 300).

(** Modelled from the spec: [utils._make_api_request], the request
    dispatcher of [puppetdb/utils.py], which is not among the sources.
    Following sections 4.1 and 7 of the specification it builds the URL as
    [base_url + path], attaches the parameters given, issues one GET with
    the verification policy and certificate given, and returns the decoded
    body on a 2xx status; a connection failure, another status and an
    undecodable body each surface as an error of their own and nothing is
    recovered locally. *)
Definition _make_api_request (api_url : pyval) (path : string)
    (verify cert : pyval) (params : option (gmap string pyval)) : py json :=
  url ← str_add api_url path;
  reply ← http_get url (default ∅ params) verify cert;
  match reply with
  | ConnectFailed => raise TransportError
  | Replied status body =>
      if is_success status then
        match json_decode body with
        | Some v => mret v
        | None => raise DecodeError
        end
      else raise (ApiError status body)
  end.

End Dispatcher.
End utils.

(** A stub service that answers every request the same way. *)
Definition stub (reply : http_reply) : list http_request -> http_request -> http_reply :=
  fun _ _ => reply.

(** The world before anything is imported. *)
Definition empty_world : world := {| heap := ∅; wire := [] |}.

(** A helper that leaves a mark in the [cert] container it is given and
    reports how many elements it found there. *)
Definition marking : dispatcher nat :=
  fun api_url path verify cert params w =>
    match list_items w cert with
    | Some xs => (list_append cert (PyStr path) ≫= fun _ => mret (length xs)) w
    | None => (Returned 0%nat, w)
    end.

(** [import puppetdb.v3.metrics] and then two calls
    [get_metric_names('http://localhost:8080')], both without [cert]. *)
Definition two_calls_without_cert {R : Type} (d : dispatcher R) : py (R * R) :=
  mm ← import_metrics;
  r1 ← get_metric_names R d mm (Some (PyStr "http://localhost:8080")) None None;
  r2 ← get_metric_names R d mm (Some (PyStr "http://localhost:8080")) None None;
  mret (r1, r2).

(** What a call hands to the helper, read off with [echo]. *)
Definition forwarded (f : endpoint_call) (w : world) :
    outcome (pyval * string * pyval * pyval * option (gmap string pyval)) :=
  fst (f _ echo w).

(** [n] calls of [get_metric_names] in a row, none of them with [cert];
    the results in the order of the calls. *)
Fixpoint calls_without_cert {R : Type} (d : dispatcher R) (mm : metrics_module)
    (api_url : option pyval) (n : nat) : py (list R) :=
  match n with
  | O => mret []
  | S n' =>
      r ← get_metric_names R d mm api_url None None;
      rs ← calls_without_cert d mm api_url n';
      mret (r :: rs)
  end.

(** [n] calls of [get_metric_names] in a row, each with a list of its own:
    [get_metric_names(api_url, cert=list())]. *)
Fixpoint calls_with_new_cert {R : Type} (d : dispatcher R) (mm : metrics_module)
    (api_url : option pyval) (n : nat) : py (list R) :=
  match n with
  | O => mret []
  | S n' =>
      c ← new_list;
      r ← get_metric_names R d mm api_url None (Some c);
      rs ← calls_with_new_cert d mm api_url n';
      mret (r :: rs)
  end.

(** * Properties *)

(** ** Small cases *)

Example format_plain : str_format "/metrics/mbeans" [] = Some "/metrics/mbeans".
Proof. reflexivity. Qed.

Example format_field : str_format "/metrics/mbean/{0}" ["num-cpus"] = Some "/metrics/mbean/num-cpus".
Proof. reflexivity. Qed.

Example format_not_reread : str_format "/metrics/mbean/{0}" ["{0}{1}"] = Some "/metrics/mbean/{0}{1}".
Proof. reflexivity. Qed.

Example format_escapes : str_format "{{{1}}}" ["a"; "b"] = Some "{b}".
Proof. reflexivity. Qed.

Example format_lone_brace : str_format "a}b" ["x"] = None.
Proof. reflexivity. Qed.

Example format_index_error : str_format "{1}" ["x"] = None.
Proof. reflexivity. Qed.

Example read_json_empty_array : read_json "[]" = Some (JArr []).
Proof. reflexivity. Qed.

Example read_json_nested :
  read_json (requote "{`a`: [1, -20, true, null], `b`: {`c`: `d\n`}}")
  = Some (JObj [("a", JArr [JNum 1; JNum (-20); JBool true; JNull]);
                ("b", JObj [("c", JStr (String "d" newline))])]).
Proof. vm_compute. reflexivity. Qed.

Example read_json_html : read_json "<html>502 Bad Gateway</html>" = None.
Proof. reflexivity. Qed.

Example read_json_trailing : read_json "[] x" = None.
Proof. reflexivity. Qed.

Example read_json_documented : read_json documented_events_text = Some documented_events.
Proof. vm_compute. reflexivity. Qed.

Example failure_query_reads :
  read_json failure_query = Some (JArr [JStr "="; JStr "status"; JStr "failure"]).
Proof. vm_compute. reflexivity. Qed.

(** ** The path template *)

Lemma append_empty_r (s : string) : s +:+ EmptyString = s.
Proof.
  induction s as [|c s IH]; [reflexivity|].
  change (String c (s +:+ EmptyString) = String c s). by rewrite IH.
Qed.

(** The template of [get_metrics_by_name] never fails, and the text put in
    for the field is not read again as a template. *)
Lemma str_format_mbean (s : string) :
  str_format "/metrics/mbean/{0}" [s] = Some ("/metrics/mbean/" +:+ s).
Proof.
  unfold str_format. cbv -[String.append].
  by rewrite append_empty_r.
Qed.

Section EndpointFacts.

Variable list_str : gmap loc (list pyval) -> loc -> string.
Variable R : Type.
Variable d : dispatcher R.

Lemma py_format_mbean (v : pyval) (w : world) :
  py_format list_str "/metrics/mbean/{0}" [v] w
  = (Returned ("/metrics/mbean/" +:+ py_str list_str (heap w) v), w).
Proof.
  unfold py_format. simpl fmap.
  change (py_str list_str (heap w) <$> [v]) with [py_str list_str (heap w) v].
  by rewrite str_format_mbean.
Qed.

Lemma get_metrics_by_name_run (m : metrics_module)
    (api_url metric_name verify cert : option pyval) (w : world) :
  get_metrics_by_name list_str R d m api_url metric_name verify cert w
  = d (arg api_url (gmbn_api_url m))
      ("/metrics/mbean/" +:+
         py_str list_str (heap w) (arg metric_name (gmbn_metric_name m)))
      (arg verify (gmbn_verify m)) (arg cert (gmbn_cert m)) None w.
Proof.
  unfold get_metrics_by_name, mbind, py_bind, bind.
  by rewrite py_format_mbean.
Qed.

End EndpointFacts.

(** The arguments a call forwards are determined by the call. *)
Lemma forwards_unique (f : endpoint_call) (w : world)
    (a a' : pyval) (p p' : string) (v v' c c' : pyval)
    (ps ps' : option (gmap string pyval)) :
  forwards f w a p v c ps -> forwards f w a' p' v' c' ps' ->
  (a, p, v, c, ps) = (a', p', v', c', ps').
Proof.
  intros H H'.
  specialize (H _ echo). specialize (H' _ echo).
  rewrite H in H'. unfold echo in H'. congruence.
Qed.

(** ** Importing the modules *)

Lemma import_events_run (w : world) :
  import_events w =
    (Returned {| events_API_VERSION := PyStr "v3";
                 ge_api_url := PyNone;
                 ge_query := PyStr EmptyString;
                 ge_verify := PyBool false;
                 ge_cert := PyList (fresh (dom (heap w))) |},
     set_heap (<[fresh (dom (heap w)) := []]> (heap w)) w).
Proof. reflexivity. Qed.

Lemma import_metrics_run (w : world) :
  let l1 := fresh (dom (heap w)) in
  let h1 := <[l1 := []]> (heap w) in
  let l2 := fresh (dom h1) in
  import_metrics w =
    (Returned {| metrics_API_VERSION := PyStr "v3";
                 gmn_api_url := PyNone;
                 gmn_verify := PyBool false;
                 gmn_cert := PyList l1;
                 gmbn_api_url := PyNone;
                 gmbn_metric_name := PyNone;
                 gmbn_verify := PyBool false;
                 gmbn_cert := PyList l2 |},
     set_heap (<[l2 := []]> h1) (set_heap h1 w)).
Proof. reflexivity. Qed.

(** The new list is a new object, and it is empty. *)
Lemma new_list_fresh (w : world) :
  let l := fresh (dom (heap w)) in
  heap w !! l = None /\
  new_list w = (Returned (PyList l), set_heap (<[l := []]> (heap w)) w).
Proof.
  split; [|reflexivity].
  apply not_elem_of_dom. apply is_fresh.
Qed.

(** ** The endpoint functions *)

(** C3: each of [get_metric_names], [get_metrics_by_name] and [get_events]
    is a stateless pass-through.  Whatever helper [d] it is linked with and
    in whatever world it runs, its outcome and the world it leaves are
    those of the single call of [d] on the same [api_url], [verify] and
    [cert], the path of the endpoint and, for [get_events], the [query]
    parameter; nothing else is computed on the result. *)
Theorem endpoints_pass_through (list_str : gmap loc (list pyval) -> loc -> string)
    (R : Type) (d : dispatcher R)
    (mm : metrics_module) (em : events_module)
    (api_url metric_name query verify cert : option pyval) (w : world) :
  get_metric_names R d mm api_url verify cert w
    = d (arg api_url (gmn_api_url mm)) "/metrics/mbeans"
        (arg verify (gmn_verify mm)) (arg cert (gmn_cert mm)) None w
  /\ get_metrics_by_name list_str R d mm api_url metric_name verify cert w
    = d (arg api_url (gmbn_api_url mm))
        ("/metrics/mbean/" +:+
           py_str list_str (heap w) (arg metric_name (gmbn_metric_name mm)))
        (arg verify (gmbn_verify mm)) (arg cert (gmbn_cert mm)) None w
  /\ get_events R d em api_url query verify cert w
    = d (arg api_url (ge_api_url em)) "/events"
        (arg verify (ge_verify em)) (arg cert (ge_cert em))
        (Some {[ "query" := arg query (ge_query em) ]}) w.
Proof.
  split; [reflexivity|]. split; [|reflexivity].
  apply get_metrics_by_name_run.
Qed.

(** C2: for every query [q] given to [get_events], the parameters handed
    to the helper have exactly one entry; its name is [query] and its value
    is [q] itself. *)
Theorem get_events_forwards_query (em : events_module)
    (api_url verify cert : option pyval) (q : pyval) (w : world) :
  exists params : gmap string pyval,
    forwards (fun R d => get_events R d em api_url (Some q) verify cert) w
      (arg api_url (ge_api_url em)) "/events"
      (arg verify (ge_verify em)) (arg cert (ge_cert em)) (Some params)
    /\ params !! "query" = Some q
    /\ size params = 1%nat
    /\ (forall k v, params !! k = Some v -> k = "query" /\ v = q).
Proof.
  exists {[ "query" := q ]}. split; [|split; [|split]].
  - intros R d. reflexivity.
  - apply lookup_singleton_eq.
  - apply map_size_singleton.
  - intros k v H. apply lookup_singleton_Some in H as [<- <-]. done.
Qed.

(** C4: for every [metric_name], the path that [get_metrics_by_name] hands
    to the helper is the finished string ["/metrics/mbean/"] followed by
    the string form of [metric_name]; and the modelled dispatcher puts that
    path after the base URL as it is. *)
Theorem get_metrics_by_name_path (list_str : gmap loc (list pyval) -> loc -> string)
    (mm : metrics_module) (api_url verify cert : option pyval)
    (metric_name : pyval) (w : world) :
  forwards
    (fun R d => get_metrics_by_name list_str R d mm api_url (Some metric_name) verify cert) w
    (arg api_url (gmbn_api_url mm))
    ("/metrics/mbean/" +:+ py_str list_str (heap w) metric_name)
    (arg verify (gmbn_verify mm)) (arg cert (gmbn_cert mm)) None
  /\ forall (server : list http_request -> http_request -> http_reply)
       (json_decode : string -> option json) (base_url : string),
     rq_url <$> wire (snd
       (get_metrics_by_name list_str json
          (utils._make_api_request server json_decode) mm
          (Some (PyStr base_url)) (Some metric_name) verify cert w))
     = ((rq_url <$> wire w) ++
        [base_url +:+ "/metrics/mbean/" +:+ py_str list_str (heap w) metric_name])%list.
Proof.
  split.
  - intros R d. apply get_metrics_by_name_run.
  - intros server json_decode base_url.
    rewrite get_metrics_by_name_run. simpl arg.
    unfold utils._make_api_request, mbind, py_bind, bind. simpl.
    destruct (server _ _) as [|status body]; simpl.
    + by rewrite fmap_app.
    + destruct (utils.is_success status); [destruct (json_decode body)|];
        simpl; by rewrite fmap_app.
Qed.

(** C8: called without [query], [get_events] still hands the helper a
    parameter set with the key [query]; its value is the empty string, the
    default of the parameter. *)
Theorem get_events_default_query (api_url verify cert : option pyval) (w0 : world) :
  match import_events w0 with
  | (Returned em, w1) =>
      forall w : world,
        forwards (fun R d => get_events R d em api_url None verify cert) w
          (arg api_url PyNone) "/events"
          (arg verify (PyBool false)) (arg cert (ge_cert em))
          (Some {[ "query" := PyStr EmptyString ]})
        /\ ({[ "query" := PyStr EmptyString ]} : gmap string pyval) !! "query"
           = Some (PyStr EmptyString)
  | (Raised _, _) => False
  end.
Proof.
  rewrite import_events_run. intros w. split.
  - intros R d. reflexivity.
  - apply lookup_singleton_eq.
Qed.

(** C9: called without [metric_name], [get_metrics_by_name] raises nothing
    of its own: it calls the helper, and the path it hands over is
    ["/metrics/mbean/None"]. *)
Theorem get_metrics_by_name_default_name
    (list_str : gmap loc (list pyval) -> loc -> string)
    (api_url verify cert : option pyval) (w0 : world) :
  match import_metrics w0 with
  | (Returned mm, w1) =>
      forall w : world,
        forwards
          (fun R d => get_metrics_by_name list_str R d mm api_url None verify cert) w
          (arg api_url PyNone) "/metrics/mbean/None"
          (arg verify (PyBool false)) (arg cert (gmbn_cert mm)) None
  | (Raised _, _) => False
  end.
Proof.
  rewrite import_metrics_run. intros w R d.
  rewrite get_metrics_by_name_run. reflexivity.
Qed.

(** C10: after the import of the v4 events module its [API_VERSION] is the
    string ["v3"]; and whatever that constant is rebound to, [get_events]
    hands the helper the path ["/events"] and the same other arguments, so
    the constant has no part in the request. *)
Theorem events_API_VERSION_unused (w0 : world) :
  match import_events w0 with
  | (Returned em, w1) =>
      events_API_VERSION em = PyStr "v3"
      /\ forall (v : pyval) (api_url query verify cert : option pyval) (w : world),
           forwards
             (fun R d =>
                get_events R d (set_events_API_VERSION v em) api_url query verify cert) w
             (arg api_url PyNone) "/events"
             (arg verify (PyBool false)) (arg cert (ge_cert em))
             (Some {[ "query" := arg query (PyStr EmptyString) ]})
  | (Raised _, _) => False
  end.
Proof.
  rewrite import_events_run. split; [reflexivity|].
  intros v api_url query verify cert w R d. reflexivity.
Qed.

(** C5: two calls of [get_metric_names] that both leave out [cert] do not
    get a list of their own.  Each hands the helper the one list object
    that was made when the [def] statement ran, so an object is common to
    the two invocations. *)
Theorem default_cert_shared_between_calls (w0 : world) :
  match import_metrics w0 with
  | (Returned mm, w1) =>
      exists l : loc,
        heap w0 !! l = None /\ heap w1 !! l = Some []
        /\ forall (w w' : world),
             forwards
               (fun R d => get_metric_names R d mm (Some (PyStr "http://localhost:8080")) None None) w
               (PyStr "http://localhost:8080") "/metrics/mbeans" (PyBool false) (PyList l) None
             /\ forwards
               (fun R d => get_metric_names R d mm (Some (PyStr "http://localhost:8080")) None None) w'
               (PyStr "http://localhost:8080") "/metrics/mbeans" (PyBool false) (PyList l) None
  | (Raised _, _) => False
  end.
Proof.
  rewrite import_metrics_run. cbv zeta.
  exists (fresh (dom (heap w0))). split; [|split].
  - apply not_elem_of_dom, is_fresh.
  - simpl. rewrite lookup_insert_ne.
    + apply lookup_insert_eq.
    + intros E.
      pose proof (is_fresh (dom (<[fresh (dom (heap w0)) := []]> (heap w0)))) as F.
      rewrite E in F. apply F. rewrite dom_insert_L. set_solver.
  - intros w w'. split; intros R d; reflexivity.
Qed.

(** ** The request dispatcher *)

Section DispatcherFacts.

Variable server : list http_request -> http_request -> http_reply.
Variable json_decode : string -> option json.

(** The request that a call of the dispatcher sends. *)
Lemma make_api_request_run (base_url path : string) (verify cert : pyval)
    (params : option (gmap string pyval)) (w : world) :
  let rq := {| rq_method := GET; rq_url := base_url +:+ path;
               rq_params := default ∅ params;
               rq_verify := verify; rq_cert := cert |} in
  utils._make_api_request server json_decode (PyStr base_url) path verify cert params w
  = (match server (wire w) rq with
     | ConnectFailed => Raised TransportError
     | Replied status body =>
         if utils.is_success status then
           match json_decode body with
           | Some v => Returned v
           | None => Raised DecodeError
           end
         else Raised (ApiError status body)
     end,
     set_wire (wire w ++ [rq])%list w).
Proof.
  intros rq.
  unfold utils._make_api_request, mbind, py_bind, bind. simpl.
  fold rq. destruct (server (wire w) rq) as [|status body]; [reflexivity|].
  destruct (utils.is_success status); [|reflexivity].
  destruct (json_decode body); reflexivity.
Qed.

End DispatcherFacts.

(** C1: for a base URL and a path, a call of the dispatcher puts exactly
    one request on the wire; it is a GET and its URL is the base URL
    directly followed by the path.  Nothing else in the world changes. *)
Theorem dispatcher_issues_one_get
    (server : list http_request -> http_request -> http_reply)
    (json_decode : string -> option json)
    (base_url path : string) (verify cert : pyval)
    (params : option (gmap string pyval)) (w : world) :
  let w' := snd (utils._make_api_request server json_decode
                   (PyStr base_url) path verify cert params w) in
  wire w' = (wire w ++
             [ {| rq_method := GET; rq_url := base_url +:+ path;
                  rq_params := default ∅ params;
                  rq_verify := verify; rq_cert := cert |} ])%list
  /\ heap w' = heap w.
Proof.
  rewrite make_api_request_run. simpl. split; reflexivity.
Qed.

(** C6: the three ways a call of the dispatcher can fail come back to the
    caller apart from one another.  No connection gives a transport
    error, a status outside 2xx gives an API error that carries the status
    and the body, a 2xx body that does not decode gives a decoding error;
    a value is returned only for a 2xx body that decodes, and the three
    errors are pairwise different. *)
Theorem dispatcher_failures_distinct
    (server : list http_request -> http_request -> http_reply)
    (json_decode : string -> option json)
    (base_url path : string) (verify cert : pyval)
    (params : option (gmap string pyval)) (w : world) :
  let rq := {| rq_method := GET; rq_url := base_url +:+ path;
               rq_params := default ∅ params;
               rq_verify := verify; rq_cert := cert |} in
  let out := fst (utils._make_api_request server json_decode
                    (PyStr base_url) path verify cert params w) in
  match server (wire w) rq with
  | ConnectFailed => out = Raised TransportError
  | Replied status body =>
      if (200 <=? status) && (status <? 300) then
        match json_decode body with
        | Some v => out = Returned v
        | None => out = Raised DecodeError
        end
      else out = Raised (ApiError status body)
  end
  /\ TransportError <> DecodeError
  /\ (forall status body,
        ApiError status body <> TransportError
        /\ ApiError status body <> DecodeError)
  /\ (forall status body status' body',
        ApiError status body = ApiError status' body' ->
        status = status' /\ body = body').
Proof.
  intros rq out. subst out. rewrite make_api_request_run. fold rq. simpl.
  split; [|split; [|split]].
  - destruct (server (wire w) rq) as [|status body]; [reflexivity|].
    unfold utils.is_success.
    destruct ((200 <=? status) && (status <? 300)); [|reflexivity].
    destruct (json_decode body); reflexivity.
  - discriminate.
  - intros status body. split; discriminate.
  - intros status body status' body' [= -> ->]. split; reflexivity.
Qed.

(** C7: [get_events] with the query [["=", "status", "failure"]], against a
    service that answers 200 with the two-event array of the module's
    docstring, returns the decoded array as it is: two elements, the first
    with [status] equal to ["success"]; nothing is filtered by the
    query on this side. *)
Theorem get_events_documented_example
    (server : list http_request -> http_request -> http_reply)
    (json_decode : string -> option json)
    (base_url : string) (verify cert : option pyval) (w0 : world) :
  (forall hist rq, server hist rq = Replied 200 documented_events_text) ->
  json_decode documented_events_text = Some documented_events ->
  exists v : json,
    fst ((em ← import_events;
          get_events json (utils._make_api_request server json_decode) em
            (Some (PyStr base_url)) (Some (PyStr failure_query)) verify cert) w0)
    = Returned v
    /\ v = documented_events
    /\ json_len v = Some 2%nat
    /\ json_item 0 v ≫= json_field "status" = Some (JStr "success").
Proof.
  intros Hserver Hdecode.
  exists documented_events. split; [|split; [reflexivity|split; reflexivity]].
  unfold mbind at 1. unfold py_bind, bind.
  rewrite import_events_run. unfold get_events. simpl arg.
  rewrite make_api_request_run. simpl fst.
  rewrite Hserver. simpl. by rewrite Hdecode.
Qed.

Lemma get_events_documented_example_witness :
  (forall hist rq,
     stub (Replied 200 documented_events_text) hist rq
     = Replied 200 documented_events_text)
  /\ read_json documented_events_text = Some documented_events
  /\ exists v : json,
       fst ((em ← import_events;
             get_events json
               (utils._make_api_request
                  (stub (Replied 200 documented_events_text)) read_json) em
               (Some (PyStr "http://localhost:8080"))
               (Some (PyStr failure_query)) None None) empty_world)
       = Returned v
       /\ v = documented_events
       /\ json_len v = Some 2%nat
       /\ json_item 0 v ≫= json_field "status" = Some (JStr "success").
Proof.
  split; [reflexivity|]. split; [vm_compute; reflexivity|].
  apply get_events_documented_example.
  - reflexivity.
  - vm_compute; reflexivity.
Defined.

(** With a helper that writes into the container, the second of two calls
    without [cert] finds what the first one left there. *)
Example default_cert_remembers :
  fst (two_calls_without_cert marking empty_world) = Returned (0%nat, 1%nat).
Proof. vm_compute. reflexivity. Qed.

(** With the modelled dispatcher, the two requests on the wire carry the
    same list object as certificate. *)
Example default_cert_on_the_wire :
  rq_cert <$> wire (snd (two_calls_without_cert
                           (utils._make_api_request (stub (Replied 200 "[]")) read_json)
                           empty_world))
  = [PyList 1%positive; PyList 1%positive].
Proof. vm_compute. reflexivity. Qed.

(** A slash at the end of the base URL is kept next to the one the path
    starts with. *)
Example url_not_normalised :
  rq_url <$> wire (snd (utils._make_api_request (stub ConnectFailed) read_json
                          (PyStr "http://localhost:8080/") "/events"
                          (PyBool false) PyNone None empty_world))
  = ["http://localhost:8080//events"].
Proof. vm_compute. reflexivity. Qed.

(** * Further properties of the endpoint functions *)

(** ** Which calls coincide *)

Lemma mbean_path_inj (s1 s2 : string) :
  "/metrics/mbean/" +:+ s1 = "/metrics/mbean/" +:+ s2 -> s1 = s2.
Proof. cbv [String.append]. congruence. Qed.

Lemma mbean_path_not_listing (s : string) :
  "/metrics/mbean/" +:+ s <> "/metrics/mbeans".
Proof. cbv [String.append]. congruence. Qed.

Lemma forwarded_get_metrics_by_name
    (list_str : gmap loc (list pyval) -> loc -> string) (mm : metrics_module)
    (api_url metric_name verify cert : option pyval) (w : world) :
  forwarded (fun R d => get_metrics_by_name list_str R d mm api_url metric_name verify cert) w
  = Returned (arg api_url (gmbn_api_url mm),
              "/metrics/mbean/" +:+
                py_str list_str (heap w) (arg metric_name (gmbn_metric_name mm)),
              arg verify (gmbn_verify mm), arg cert (gmbn_cert mm), None).
Proof. unfold forwarded. by rewrite get_metrics_by_name_run. Qed.

(** X1: the three endpoint functions never hand the helper the same call.
    Whatever the arguments, the modules and the worlds, what
    [get_metrics_by_name] forwards differs from what [get_metric_names]
    forwards (no metric name yields the path of the listing), and what
    [get_events] forwards differs from both. *)
Theorem endpoints_never_coincide
    (list_str : gmap loc (list pyval) -> loc -> string)
    (mm mm' : metrics_module) (em : events_module)
    (a1 v1 c1 a2 n2 v2 c2 a3 q3 v3 c3 : option pyval) (w1 w2 w3 : world) :
  let names := forwarded (fun R d => get_metric_names R d mm a1 v1 c1) w1 in
  let by_name :=
    forwarded (fun R d => get_metrics_by_name list_str R d mm' a2 n2 v2 c2) w2 in
  let events := forwarded (fun R d => get_events R d em a3 q3 v3 c3) w3 in
  names <> by_name /\ names <> events /\ by_name <> events.
Proof.
  cbv zeta. rewrite forwarded_get_metrics_by_name.
  unfold forwarded, get_metric_names, get_events, echo. simpl.
  split; [|split].
  - intros H.
    apply (mbean_path_not_listing
             (py_str list_str (heap w2) (arg n2 (gmbn_metric_name mm')))).
    congruence.
  - discriminate.
  - discriminate.
Qed.

(** X2: two calls of [get_metrics_by_name] that differ in the metric name
    only behave alike with every helper exactly when the two names have
    the same string form.  So a name left out, the value [None] and the
    string ["None"] cannot be told apart, and names with different string
    forms always give different paths. *)
Theorem get_metrics_by_name_same_request_iff
    (list_str : gmap loc (list pyval) -> loc -> string) (mm : metrics_module)
    (api_url verify cert n1 n2 : option pyval) (w : world) :
  (forall (R : Type) (d : dispatcher R),
     get_metrics_by_name list_str R d mm api_url n1 verify cert w
     = get_metrics_by_name list_str R d mm api_url n2 verify cert w)
  <-> py_str list_str (heap w) (arg n1 (gmbn_metric_name mm))
      = py_str list_str (heap w) (arg n2 (gmbn_metric_name mm)).
Proof.
  split.
  - intros H. specialize (H _ echo).
    rewrite !get_metrics_by_name_run in H. unfold echo in H.
    apply mbean_path_inj. congruence.
  - intros E R d. rewrite !get_metrics_by_name_run. by rewrite E.
Qed.

(** X3: two calls of [get_events] that differ in the query only behave
    alike with every helper exactly when the query values are the same,
    a query left out counting as the default of the parameter. *)
Theorem get_events_same_request_iff (em : events_module)
    (api_url verify cert q1 q2 : option pyval) (w : world) :
  (forall (R : Type) (d : dispatcher R),
     get_events R d em api_url q1 verify cert w
     = get_events R d em api_url q2 verify cert w)
  <-> arg q1 (ge_query em) = arg q2 (ge_query em).
Proof.
  split.
  - intros H. specialize (H _ echo). unfold get_events, echo in H.
    assert (E : ({[ "query" := arg q1 (ge_query em) ]} : gmap string pyval)
                = {[ "query" := arg q2 (ge_query em) ]}) by congruence.
    assert (L : ({[ "query" := arg q1 (ge_query em) ]} : gmap string pyval) !! "query"
                = Some (arg q2 (ge_query em))).
    { rewrite E. apply lookup_singleton_eq. }
    rewrite lookup_singleton_eq in L. congruence.
  - intros E R d. unfold get_events. by rewrite E.
Qed.

(** After the import, leaving the name out and passing the string
    ["None"] are the same call. *)
Example omitted_name_is_None_string
    (list_str : gmap loc (list pyval) -> loc -> string)
    (R : Type) (d : dispatcher R) (api_url verify cert : option pyval) (w0 : world) :
  match import_metrics w0 with
  | (Returned mm, w1) =>
      get_metrics_by_name list_str R d mm api_url None verify cert w1
      = get_metrics_by_name list_str R d mm api_url (Some (PyStr "None")) verify cert w1
  | (Raised _, _) => False
  end.
Proof. rewrite import_metrics_run. by rewrite !get_metrics_by_name_run. Qed.

(** ** What an import does *)

Lemma fresh_unused (h : gmap loc (list pyval)) : h !! fresh (dom h) = None.
Proof. apply not_elem_of_dom, is_fresh. Qed.

Lemma used_not_fresh (h : gmap loc (list pyval)) (l : loc) :
  is_Some (h !! l) -> l <> fresh (dom h).
Proof. intros [xs H] ->. rewrite fresh_unused in H. discriminate. Qed.


(** X5: after the import of both modules the three defaults of [cert]
    (of [get_metric_names], [get_metrics_by_name] and [get_events]) are
    three different list objects, each of them empty. *)
Theorem default_certs_pairwise_distinct (w0 : world) :
  match (mm ← import_metrics; em ← import_events; mret (mm, em)) w0 with
  | (Returned (mm, em), w1) =>
      exists l1 l2 l3 : loc,
        gmn_cert mm = PyList l1 /\ gmbn_cert mm = PyList l2
        /\ ge_cert em = PyList l3
        /\ l1 <> l2 /\ l1 <> l3 /\ l2 <> l3
        /\ heap w1 !! l1 = Some [] /\ heap w1 !! l2 = Some []
        /\ heap w1 !! l3 = Some []
  | (Raised _, _) => False
  end.
Proof.
  unfold mbind at 1. unfold py_bind, bind.
  rewrite import_metrics_run. cbv zeta.
  unfold mbind at 1. unfold py_bind, bind.
  rewrite import_events_run. simpl.
  set (h0 := heap w0). set (l1 := fresh (dom h0)).
  set (h1 := <[l1 := []]> h0). set (l2 := fresh (dom h1)).
  set (h2 := <[l2 := []]> h1). set (l3 := fresh (dom h2)).
  assert (N12 : l1 <> l2).
  { apply used_not_fresh. unfold h1. rewrite lookup_insert_eq. by eexists. }
  assert (N23 : l2 <> l3).
  { apply used_not_fresh. unfold h2. rewrite lookup_insert_eq. by eexists. }
  assert (N13 : l1 <> l3).
  { apply used_not_fresh. unfold h2. rewrite lookup_insert_ne; [|done].
    unfold h1. rewrite lookup_insert_eq. by eexists. }
  exists l1, l2, l3. repeat split; try done.
  - rewrite lookup_insert_ne; [|done]. unfold h2.
    rewrite lookup_insert_ne; [|done]. unfold h1. apply lookup_insert_eq.
  - rewrite lookup_insert_ne; [|done]. unfold h2. apply lookup_insert_eq.
  - apply lookup_insert_eq.
Qed.

(** ** Calls in a row *)

(** The marking helper on a list object: it reports the length it finds
    and adds one element. *)
Lemma marking_run (api_url : pyval) (path : string) (verify : pyval) (l : loc)
    (params : option (gmap string pyval)) (w : world) (xs : list pyval) :
  heap w !! l = Some xs ->
  marking api_url path verify (PyList l) params w
  = (Returned (length xs),
     set_heap (<[l := (xs ++ [PyStr path])%list]> (heap w)) w).
Proof.
  intros H. unfold marking, list_items. rewrite H.
  unfold mbind, py_bind, bind, list_append. rewrite H. reflexivity.
Qed.

(** One more call in front of [n] calls. *)
Lemma calls_without_cert_step (mm : metrics_module) (l : loc)
    (api_url : option pyval) (n : nat) (w : world) (xs : list pyval) :
  gmn_cert mm = PyList l ->
  heap w !! l = Some xs ->
  calls_without_cert marking mm api_url (S n) w
  = match calls_without_cert marking mm api_url n
            (set_heap (<[l := (xs ++ [PyStr "/metrics/mbeans"])%list]> (heap w)) w) with
    | (Returned rs, w') => (Returned (length xs :: rs), w')
    | (Raised e, w') => (Raised e, w')
    end.
Proof.
  intros Hc H. cbn [calls_without_cert].
  unfold mbind at 1. unfold py_bind, bind.
  unfold get_metric_names. simpl arg. rewrite Hc.
  rewrite (marking_run _ _ _ _ _ _ xs H).
  unfold mbind at 1. unfold py_bind, bind.
  destruct (calls_without_cert marking mm api_url n _) as [[rs|e] w']; reflexivity.
Qed.

(** [n] marking calls on the default container: the results count up from
    the length found, the container grows by [n] and no other object is
    touched. *)
Lemma calls_without_cert_marking (mm : metrics_module) (l : loc)
    (api_url : option pyval) (n : nat) :
  gmn_cert mm = PyList l ->
  forall (w : world) (xs : list pyval),
    heap w !! l = Some xs ->
    fst (calls_without_cert marking mm api_url n w) = Returned (seq (length xs) n)
    /\ (exists ys, length ys = n
          /\ heap (snd (calls_without_cert marking mm api_url n w)) !! l
             = Some (xs ++ ys)%list)
    /\ (forall l', l' <> l ->
          heap (snd (calls_without_cert marking mm api_url n w)) !! l' = heap w !! l').
Proof.
  intros Hc. induction n as [|n IH]; intros w xs H.
  - simpl. split; [reflexivity|]. split; [|done].
    exists []. by rewrite app_nil_r.
  - rewrite (calls_without_cert_step mm l api_url n w xs Hc H).
    set (w' := set_heap _ w).
    assert (H' : heap w' !! l = Some (xs ++ [PyStr "/metrics/mbeans"])%list)
      by apply lookup_insert_eq.
    destruct (IH w' _ H') as (Hr & (ys & Hlen & Hh) & Hother).
    destruct (calls_without_cert marking mm api_url n w') as [[rs|e] w''];
      simpl in Hr, Hh, Hother; [|discriminate].
    injection Hr as ->. simpl.
    rewrite length_app, Nat.add_comm. simpl.
    split; [reflexivity|]. split.
    + exists (PyStr "/metrics/mbeans" :: ys). split; [simpl; by rewrite Hlen|].
      rewrite Hh. by rewrite <- app_assoc.
    + intros l' Hne. rewrite (Hother l' Hne). by apply lookup_insert_ne.
Qed.

(** X6: the default container of [get_metric_names] lives on from call to
    call.  After the import, [n] calls without [cert], linked with a helper
    that adds an element to the container it is given and reports how many
    it found, report 0, 1, ..., n-1. *)
Theorem default_cert_accumulates (api_url : option pyval) (n : nat) (w0 : world) :
  fst ((mm ← import_metrics; calls_without_cert marking mm api_url n) w0)
  = Returned (seq 0 n).
Proof.
  unfold mbind at 1. unfold py_bind, bind.
  rewrite import_metrics_run. cbv zeta.
  set (mm := {| metrics_API_VERSION := _ |}). set (w1 := set_heap _ _).
  assert (N : fresh (dom (heap w0))
              <> fresh (dom (<[fresh (dom (heap w0)) := []]> (heap w0)))).
  { apply used_not_fresh. rewrite lookup_insert_eq. by eexists. }
  assert (H : heap w1 !! fresh (dom (heap w0)) = Some []).
  { simpl. rewrite lookup_insert_ne; [|done]. apply lookup_insert_eq. }
  by destruct (calls_without_cert_marking mm _ api_url n eq_refl w1 [] H) as [Hr _].
Qed.

(** X8: the defaults are kept per function.  Elements that [n] calls of
    [get_metric_names] without [cert] have left in its default container
    are not seen by [get_metrics_by_name] called without [cert]: its
    container is another one and is still empty. *)
Theorem defaults_are_per_function
    (list_str : gmap loc (list pyval) -> loc -> string)
    (api_url metric_name : option pyval) (n : nat) (w0 : world) :
  fst ((mm ← import_metrics;
        _ ← calls_without_cert marking mm api_url n;
        get_metrics_by_name list_str nat marking mm api_url metric_name None None) w0)
  = Returned 0%nat.
Proof.
  unfold mbind at 1. unfold py_bind, bind.
  rewrite import_metrics_run. cbv zeta.
  set (l1 := fresh (dom (heap w0))).
  set (l2 := fresh (dom (<[l1 := []]> (heap w0)))).
  set (mm := {| metrics_API_VERSION := _ |}). set (w1 := set_heap _ _).
  assert (N : l1 <> l2).
  { apply used_not_fresh. rewrite lookup_insert_eq. by eexists. }
  assert (H1 : heap w1 !! l1 = Some []).
  { simpl. rewrite lookup_insert_ne; [|done]. apply lookup_insert_eq. }
  assert (H2 : heap w1 !! l2 = Some []) by apply lookup_insert_eq.
  destruct (calls_without_cert_marking mm l1 api_url n eq_refl w1 [] H1)
    as (Hr & _ & Hother).
  unfold mbind at 1. unfold py_bind, bind.
  destruct (calls_without_cert marking mm api_url n w1) as [[rs|e] w2];
    simpl in Hr, Hother; [|discriminate].
  rewrite get_metrics_by_name_run. simpl arg.
  assert (H2' : heap w2 !! l2 = Some []).
  { rewrite Hother; [done|]. intros E. by apply N. }
  by rewrite (marking_run _ _ _ _ _ _ [] H2').
Qed.

Lemma calls_with_new_cert_step (mm : metrics_module)
    (api_url : option pyval) (n : nat) (w : world) :
  let c := fresh (dom (heap w)) in
  calls_with_new_cert marking mm api_url (S n) w
  = match calls_with_new_cert marking mm api_url n
            (set_heap (<[c := [PyStr "/metrics/mbeans"]]> (heap w)) w) with
    | (Returned rs, w') => (Returned (0%nat :: rs), w')
    | (Raised e, w') => (Raised e, w')
    end.
Proof.
  intros c. cbn [calls_with_new_cert].
  unfold mbind at 1. unfold py_bind, bind. unfold new_list. fold c.
  unfold mbind at 1. unfold py_bind, bind.
  unfold get_metric_names. simpl arg.
  rewrite (marking_run _ _ _ c _ _ []); [|apply lookup_insert_eq].
  unfold mbind at 1. unfold py_bind, bind. simpl.
  rewrite insert_insert_eq.
  destruct (calls_with_new_cert marking mm api_url n _) as [[rs|e] w']; reflexivity.
Qed.

(** [n] marking calls, each on a list of its own: every call finds its
    list empty and the lists there were before stay as they are. *)
Lemma calls_with_new_cert_marking (mm : metrics_module)
    (api_url : option pyval) (n : nat) :
  forall w : world,
    fst (calls_with_new_cert marking mm api_url n w) = Returned (replicate n 0%nat)
    /\ (forall l xs, heap w !! l = Some xs ->
          heap (snd (calls_with_new_cert marking mm api_url n w)) !! l = Some xs).
Proof.
  induction n as [|n IH]; intros w.
  - simpl. split; [reflexivity|done].
  - rewrite calls_with_new_cert_step.
    set (c := fresh (dom (heap w))). set (w' := set_heap _ w).
    destruct (IH w') as (Hr & Hkeep).
    destruct (calls_with_new_cert marking mm api_url n w') as [[rs|e] w''];
      simpl in Hr, Hkeep; [|discriminate].
    injection Hr as ->. simpl. split; [reflexivity|].
    intros l xs H. apply Hkeep. rewrite lookup_insert_ne; [done|].
    intros <-. unfold c in H. rewrite fresh_unused in H. discriminate.
Qed.

(** X7: a caller that passes a list of its own is not affected by the
    default.  After the import, [n] calls [get_metric_names(api_url,
    cert=list())], linked with the helper that adds to the container it is
    given and reports how many elements it found, all report 0, and the
    default container of the function is still empty afterwards. *)
Theorem own_cert_keeps_calls_apart (api_url : option pyval) (n : nat) (w0 : world) :
  match import_metrics w0 with
  | (Returned mm, w1) =>
      fst (calls_with_new_cert marking mm api_url n w1) = Returned (replicate n 0%nat)
      /\ list_items (snd (calls_with_new_cert marking mm api_url n w1)) (gmn_cert mm)
         = Some []
  | (Raised _, _) => False
  end.
Proof.
  rewrite import_metrics_run. cbv zeta.
  set (l1 := fresh (dom (heap w0))).
  set (mm := {| metrics_API_VERSION := _ |}). set (w1 := set_heap _ _).
  assert (N : l1 <> fresh (dom (<[l1 := []]> (heap w0)))).
  { apply used_not_fresh. rewrite lookup_insert_eq. by eexists. }
  assert (H1 : heap w1 !! l1 = Some []).
  { simpl. rewrite lookup_insert_ne; [|done]. apply lookup_insert_eq. }
  destruct (calls_with_new_cert_marking mm api_url n w1) as (Hr & Hkeep).
  split; [exact Hr|]. simpl. by apply Hkeep.
Qed.
